(** * The echo MCP server of tests/fixtures/echo_server.py

    A shallow embedding of the JSON-RPC endpoint used as a test fixture:
    the line reader of [main], the dispatcher [handle_request] and the two
    response encoders, followed by the properties of the protocol that the
    specification states about them.

    Conventions of the embedding.
    - A Python [str] is a [string] that holds the UTF-8 bytes of its
      characters, a surrogate that stands alone as the three bytes of its
      code; [len] counts characters, [String.length] counts bytes.
    - A decoded JSON document is a [value]; a Python [dict] is an
      association list in insertion order, looked up by its first binding.
    - [print(json.dumps(v), flush=True)] appends the document [v] to the
      [stdout] of the state: one element is one line written.  The
      encoding and the write are taken to succeed.
    - Python exceptions are values of [exn]; a computation is a function
      from the state to the new state and either a result or the exception
      that left it.  The state survives a raise, as in Python.
    - The runtime the program calls but does not define is taken as a
      parameter: [json.loads], the process environment behind
      [os.environ], and the [repr] of a float and of a [str]. *)

From Stdlib Require Import String Ascii List ZArith Bool Lia DecimalString.
Import ListNotations.
Local Open Scope list_scope.
Local Open Scope string_scope.
Set Warnings "-register-all".

(** ** JSON documents as Python sees them *)

Module Json.

Inductive value : Type :=
| JNull : value
| JBool : bool -> value
| JInt : Z -> value
| JFloat : string -> value   (* the float that [float(literal)] yields *)
| JStr : string -> value
| JList : list value -> value
| JDict : list (string * value) -> value.

Definition dict := list (string * value).

(** [d.get(key)] on the association list: the first binding of [key]. *)
Fixpoint dict_get (d : dict) (key : string) : option value :=
  match d with
  | [] => None
  | (k, v) :: d' => if String.eqb k key then Some v else dict_get d' key
  end.

(** [d[key] = v]: an existing key keeps its place and takes the new
    value, a new key goes last. *)
Fixpoint dict_set (d : dict) (key : string) (v : value) : dict :=
  match d with
  | [] => [(key, v)]
  | (k, w) :: d' =>
      if String.eqb k key then (k, v) :: d' else (k, w) :: dict_set d' key v
  end.

(** [d.get(key, default)] *)
Definition get_default (d : dict) (key : string) (default : value) : value :=
  match dict_get d key with
  | Some v => v
  | None => default
  end.

(** [type(v).__name__] *)
Definition type_name (v : value) : string :=
  match v with
  | JNull => "NoneType"
  | JBool _ => "bool"
  | JInt _ => "int"
  | JFloat _ => "float"
  | JStr _ => "str"
  | JList _ => "list"
  | JDict _ => "dict"
  end.

(** [v == s] for a string constant [s]: only a [str] equals a [str]. *)
Definition eq_str (v : value) (s : string) : bool :=
  match v with
  | JStr s' => String.eqb s' s
  | _ => false
  end.

End Json.
Import Json.

(** ** [str] and [repr] of a decoded document *)

Module PyStr.

Definition hex_digit (n : N) : ascii :=
  match n with
  | 0 => "0" | 1 => "1" | 2 => "2" | 3 => "3" | 4 => "4" | 5 => "5"
  | 6 => "6" | 7 => "7" | 8 => "8" | 9 => "9" | 10 => "a" | 11 => "b"
  | 12 => "c" | 13 => "d" | 14 => "e" | _ => "f"
  end%N%char.

Fixpoint contains (c : ascii) (s : string) : bool :=
  match s with
  | EmptyString => false
  | String c' s' => Ascii.eqb c c' || contains c s'
  end.

(** [len(s)]: one character for each byte that is not a continuation
    byte of UTF-8. *)
Definition is_continuation (c : ascii) : bool :=
  let n := N_of_ascii c in ((128 <=? n) && (n <? 192))%N.

Fixpoint py_len (s : string) : nat :=
  match s with
  | EmptyString => O
  | String c s' => if is_continuation c then py_len s' else S (py_len s')
  end.

(** A [repr] of a [str] for text in ASCII, to run the server with.  The
    quote it picks is a double quote only when the text has a single
    quote and no double quote. *)
Definition repr_quote (s : string) : ascii :=
  if contains "'"%char s && negb (contains "034"%char s)
  then "034"%char else "'"%char.

Definition repr_char (quote c : ascii) : string :=
  let n := N_of_ascii c in
  if Ascii.eqb c quote || Ascii.eqb c "\"%char then String "\"%char (String c "")
  else if (n =? 9)%N then "\t"
  else if (n =? 10)%N then "\n"
  else if (n =? 13)%N then "\r"
  else if (n <? 32)%N || (n =? 127)%N then
    String "\"%char (String "x"%char
      (String (hex_digit (n / 16)) (String (hex_digit (n mod 16)) "")))
  else String c "".

Fixpoint repr_body (quote : ascii) (s : string) : string :=
  match s with
  | EmptyString => ""
  | String c s' => repr_char quote c ++ repr_body quote s'
  end.

(** [repr(s)] of a [str] in ASCII; bytes above 127 are copied as they
    are, which is right for the characters that are printable. *)
Definition ascii_repr (s : string) : string :=
  let q := repr_quote s in
  String q (repr_body q s ++ String q "").

(** [str(n)] of an [int] *)
Definition str_int (z : Z) : string := NilZero.string_of_int (Z.to_int z).

Fixpoint join (sep : string) (l : list string) : string :=
  match l with
  | [] => ""
  | [x] => x
  | x :: l' => x ++ sep ++ join sep l'
  end.

Section Repr.

(** [repr] of the float a literal denotes *)
Variable float_repr : string -> string.
(** [repr] of a [str] *)
Variable str_repr : string -> string.

Fixpoint repr (v : value) : string :=
  match v with
  | JNull => "None"
  | JBool true => "True"
  | JBool false => "False"
  | JInt z => str_int z
  | JFloat lit => float_repr lit
  | JStr s => str_repr s
  | JList l => "[" ++ join ", " (map repr l) ++ "]"
  | JDict d =>
      "{" ++ join ", " (map (fun kv => str_repr (fst kv) ++ ": " ++ repr (snd kv)) d)
          ++ "}"
  end.

(** [str(v)], which is what an f-string field [{v}] renders: a [str]
    is itself, everything else is its [repr]. *)
Definition str (v : value) : string :=
  match v with
  | JStr s => s
  | _ => repr v
  end.

End Repr.

End PyStr.

(** ** A reader of JSON text

    [json.loads] is a parameter of the server below.  [JsonText.decode]
    is an executable reader to run the server with: the grammar the
    [json] module accepts (objects, arrays, strings with their escapes,
    numbers, [true], [false], [null], [NaN] and the infinities, blanks
    between tokens, nothing after the document), with a later duplicate
    key replacing the value of an earlier one.  A [\uXXXX] escape is
    stored as the UTF-8 bytes of its character.  The reader has no limit
    on the depth of nesting or on the size of an integer. *)

Module JsonText.

Definition is_ws (c : ascii) : bool :=
  let n := N_of_ascii c in
  ((n =? 32) || (n =? 9) || (n =? 10) || (n =? 13))%N.

Fixpoint skip_ws (s : string) : string :=
  match s with
  | String c s' => if is_ws c then skip_ws s' else s
  | EmptyString => s
  end.

Definition is_digit (c : ascii) : bool :=
  let n := N_of_ascii c in ((48 <=? n) && (n <=? 57))%N.

Definition hex_value (c : ascii) : option N :=
  let n := N_of_ascii c in
  if ((48 <=? n) && (n <=? 57))%N then Some (n - 48)%N
  else if ((97 <=? n) && (n <=? 102))%N then Some (n - 87)%N
  else if ((65 <=? n) && (n <=? 70))%N then Some (n - 55)%N
  else None.

(** The four hexadecimal digits of a [\u] escape. *)
Definition hex4 (a b c d : ascii) : option N :=
  match hex_value a, hex_value b, hex_value c, hex_value d with
  | Some x, Some y, Some z, Some w => Some (((x * 16 + y) * 16 + z) * 16 + w)%N
  | _, _, _, _ => None
  end.

(** A piece of a string literal: a character of the text, or the code
    unit written by a [\u] escape. *)
Inductive piece : Type :=
| Raw (c : ascii)
| Unit16 (n : N).

(** The single-character escapes. *)
Definition backslash (c : ascii) : option ascii :=
  match c with
  | "034"%char => Some "034"%char
  | "\"%char => Some "\"%char
  | "/"%char => Some "/"%char
  | "b"%char => Some (ascii_of_nat 8)
  | "f"%char => Some (ascii_of_nat 12)
  | "n"%char => Some (ascii_of_nat 10)
  | "r"%char => Some (ascii_of_nat 13)
  | "t"%char => Some (ascii_of_nat 9)
  | _ => None
  end.

(** The text after an opening quote, up to the closing one: its pieces
    and what follows.  A control character may not appear unescaped. *)
Fixpoint scan_pieces (s : string) : option (list piece * string) :=
  match s with
  | EmptyString => None
  | String c rest =>
      if Ascii.eqb c "034"%char then Some ([], rest)
      else if Ascii.eqb c "\"%char then
        match rest with
        | String "u"%char (String h1 (String h2 (String h3 (String h4 rest')))) =>
            match hex4 h1 h2 h3 h4 with
            | Some n =>
                match scan_pieces rest' with
                | Some (ps, tail) => Some (Unit16 n :: ps, tail)
                | None => None
                end
            | None => None
            end
        | String esc rest' =>
            match backslash esc with
            | Some ch =>
                match scan_pieces rest' with
                | Some (ps, tail) => Some (Raw ch :: ps, tail)
                | None => None
                end
            | None => None
            end
        | EmptyString => None
        end
      else if (N_of_ascii c <? 32)%N then None
      else
        match scan_pieces rest with
        | Some (ps, tail) => Some (Raw c :: ps, tail)
        | None => None
        end
  end.

Definition byte (n : N) : ascii := ascii_of_N n.

(** UTF-8 of a code point *)
Definition utf8 (n : N) : string :=
  (if n <? 128 then String (byte n) ""
   else if n <? 2048 then
     String (byte (192 + n / 64)) (String (byte (128 + n mod 64)) "")
   else if n <? 65536 then
     String (byte (224 + n / 4096))
       (String (byte (128 + (n / 64) mod 64)) (String (byte (128 + n mod 64)) ""))
   else
     String (byte (240 + n / 262144))
       (String (byte (128 + (n / 4096) mod 64))
          (String (byte (128 + (n / 64) mod 64))
             (String (byte (128 + n mod 64)) ""))))%N.

(** The text of the pieces: a high surrogate escape directly followed by
    a low surrogate escape is one character. *)
Fixpoint pieces_text (ps : list piece) : string :=
  match ps with
  | [] => ""
  | Raw c :: ps' => String c (pieces_text ps')
  | Unit16 hi :: ps' =>
      match ps' with
      | Unit16 lo :: ps'' =>
          if ((55296 <=? hi) && (hi <=? 56319) && (56320 <=? lo) && (lo <=? 57343))%N
          then utf8 (65536 + ((hi - 55296) * 1024 + (lo - 56320)))%N
                 ++ pieces_text ps''
          else utf8 hi ++ pieces_text ps'
      | _ => utf8 hi ++ pieces_text ps'
      end
  end.

(** [scanstring]: the decoded string literal whose opening quote has been
    read, and the rest of the text. *)
Definition scanstring (s : string) : option (string * string) :=
  match scan_pieces s with
  | Some (ps, rest) => Some (pieces_text ps, rest)
  | None => None
  end.

(** The longest run of digits at the head of the text. *)
Fixpoint span_digits (s : string) : string * string :=
  match s with
  | String c s' =>
      if is_digit c then let (ds, rest) := span_digits s' in (String c ds, rest)
      else ("", s)
  | EmptyString => ("", s)
  end.

Fixpoint digits_value (acc : Z) (ds : string) : Z :=
  match ds with
  | String c ds' => digits_value (10 * acc + (Z.of_N (N_of_ascii c) - 48)) ds'
  | EmptyString => acc
  end.

(** The integer part of a number: [0], or a digit from 1 to 9 and then
    any digits. *)
Definition scan_integer (s : string) : option (string * string) :=
  match s with
  | String "0"%char rest => Some ("0", rest)
  | String c _ =>
      if is_digit c then Some (span_digits s) else None
  | EmptyString => None
  end.

(** The optional fraction: a dot and at least one digit. *)
Definition scan_frac (s : string) : string * string :=
  match s with
  | String "."%char rest =>
      match span_digits rest with
      | ("", _) => ("", s)
      | (ds, rest') => (String "."%char ds, rest')
      end
  | _ => ("", s)
  end.

(** The optional exponent: [e] or [E], an optional sign, at least one
    digit. *)
Definition scan_exp (s : string) : string * string :=
  match s with
  | String e rest =>
      if Ascii.eqb e "e"%char || Ascii.eqb e "E"%char then
        let (sign, rest1) :=
          match rest with
          | String sg r =>
              if Ascii.eqb sg "+"%char || Ascii.eqb sg "-"%char
              then (String sg "", r) else ("", rest)
          | EmptyString => ("", rest)
          end in
        match span_digits rest1 with
        | ("", _) => ("", s)
        | (ds, rest') => (String e (sign ++ ds), rest')
        end
      else ("", s)
  | EmptyString => ("", s)
  end.

(** A number at the head of the text: an [int] when it has neither
    fraction nor exponent, a [float] otherwise. *)
Definition scan_number (s : string) : option (value * string) :=
  let (minus, s0) :=
    match s with
    | String "-"%char r => (true, r)
    | _ => (false, s)
    end in
  match scan_integer s0 with
  | None => None
  | Some (int_part, s1) =>
      let (frac, s2) := scan_frac s1 in
      let (exp, s3) := scan_exp s2 in
      let sign := if minus then "-" else "" in
      if String.eqb frac "" && String.eqb exp "" then
        let n := digits_value 0 int_part in
        Some (JInt (if minus then - n else n), s3)
      else Some (JFloat (sign ++ int_part ++ frac ++ exp), s3)
  end.

(** [text] without the prefix [word], when it starts with it. *)
Fixpoint strip_prefix (word text : string) : option string :=
  match word, text with
  | EmptyString, _ => Some text
  | String a word', String b text' =>
      if Ascii.eqb a b then strip_prefix word' text' else None
  | String _ _, EmptyString => None
  end.

Section Composite.

(** the reader of one document, for the elements and the member values *)
Variable scan : string -> option (value * string).

(** The elements of an array, from the first: a comma announces the next
    one and a closing bracket ends them. *)
Fixpoint array_items (fuel : nat) (s : string) (acc : list value)
  : option (list value * string) :=
  match fuel with
  | O => None
  | S fuel' =>
      match scan s with
      | None => None
      | Some (v, s1) =>
          match skip_ws s1 with
          | String "]"%char s2 => Some ((acc ++ [v])%list, s2)
          | String ","%char s2 => array_items fuel' (skip_ws s2) (acc ++ [v])%list
          | _ => None
          end
      end
  end.

(** The text after an opening bracket. *)
Definition scan_array (fuel : nat) (s : string) : option (value * string) :=
  match skip_ws s with
  | String "]"%char s1 => Some (JList [], s1)
  | s1 =>
      match array_items fuel s1 [] with
      | Some (vs, s2) => Some (JList vs, s2)
      | None => None
      end
  end.

(** The members of an object, from the text after the opening quote of a
    key. *)
Fixpoint object_members (fuel : nat) (s : string) (pairs : dict)
  : option (dict * string) :=
  match fuel with
  | O => None
  | S fuel' =>
      match scanstring s with
      | None => None
      | Some (key, s1) =>
          match skip_ws s1 with
          | String ":"%char s2 =>
              match scan (skip_ws s2) with
              | None => None
              | Some (v, s3) =>
                  let pairs' := dict_set pairs key v in
                  match skip_ws s3 with
                  | String "}"%char s4 => Some (pairs', s4)
                  | String ","%char s4 =>
                      match skip_ws s4 with
                      | String "034"%char s5 => object_members fuel' s5 pairs'
                      | _ => None
                      end
                  | _ => None
                  end
              end
          | _ => None
          end
      end
  end.

(** The text after an opening brace. *)
Definition scan_object (fuel : nat) (s : string) : option (value * string) :=
  match skip_ws s with
  | String "}"%char s1 => Some (JDict [], s1)
  | String "034"%char s1 =>
      match object_members fuel s1 [] with
      | Some (pairs, s2) => Some (JDict pairs, s2)
      | None => None
      end
  | _ => None
  end.

End Composite.

Definition keyword (word : string) (v : value) (s : string)
  : option (value * string) :=
  match strip_prefix word s with
  | Some rest => Some (v, rest)
  | None => None
  end.

(** [scan_once]: one document at the head of the text.  [fuel] bounds the
    depth of nesting; the containers are given the length of the text as
    the bound on the number of their elements. *)
Fixpoint scan_once (fuel : nat) (s : string) : option (value * string) :=
  match fuel with
  | O => None
  | S fuel' =>
      match s with
      | EmptyString => None
      | String c rest =>
          if Ascii.eqb c "034"%char then
            match scanstring rest with
            | Some (text, rest') => Some (JStr text, rest')
            | None => None
            end
          else if Ascii.eqb c "{"%char then
            scan_object (scan_once fuel') (String.length s) rest
          else if Ascii.eqb c "["%char then
            scan_array (scan_once fuel') (String.length s) rest
          else
            match keyword "null" JNull s with
            | Some r => Some r
            | None =>
            match keyword "true" (JBool true) s with
            | Some r => Some r
            | None =>
            match keyword "false" (JBool false) s with
            | Some r => Some r
            | None =>
            match scan_number s with
            | Some r => Some r
            | None =>
            match keyword "NaN" (JFloat "NaN") s with
            | Some r => Some r
            | None =>
            match keyword "Infinity" (JFloat "Infinity") s with
            | Some r => Some r
            | None => keyword "-Infinity" (JFloat "-Infinity") s
            end end end end end end
      end
  end.

(** The whole text as one document: blanks may surround it, nothing else
    may follow it. *)
Definition decode (s : string) : option value :=
  match scan_once (S (String.length s)) (skip_ws s) with
  | Some (v, rest) =>
      match skip_ws rest with
      | EmptyString => Some v
      | _ => None
      end
  | None => None
  end.

End JsonText.

(** ** Exceptions, the state of the process and computations over it *)

(** The classes of [Exception] that occur: the three the dispatcher can
    provoke, the one [json.loads] documents, and [RecursionError] for the
    interpreter's own limit. *)
Inductive error_class : Type :=
| AttributeError | TypeError | UnicodeEncodeError | JSONDecodeError
| RecursionError.

Inductive exn : Type :=
| Exception (cls : error_class) (msg : string)
| KeyboardInterrupt
| SystemExit (code : Z).

Inductive result (A : Type) : Type :=
| Ok (a : A)
| Raise (e : exn).
Arguments Ok {A} a.
Arguments Raise {A} e.

(** [str(e)] *)
Definition exn_str (e : exn) : string :=
  match e with
  | Exception _ msg => msg
  | KeyboardInterrupt => ""
  | SystemExit code => PyStr.str_int code
  end.

(** [except Exception] *)
Definition is_Exception (e : exn) : bool :=
  match e with Exception _ _ => true | _ => false end.

(** [except json.JSONDecodeError] *)
Definition is_JSONDecodeError (e : exn) : bool :=
  match e with Exception JSONDecodeError _ => true | _ => false end.

(** [except KeyboardInterrupt] *)
Definition is_KeyboardInterrupt (e : exn) : bool :=
  match e with KeyboardInterrupt => true | _ => false end.

(** class EchoMCPServer: its only attribute *)
Record EchoMCPServer : Type := { message_id : Z }.

(** The mutable state of a run: the server object, the local [buffer] of
    [main], and what has been written to the two output streams. *)
Record process : Type := {
  server : EchoMCPServer;
  buffer : string;
  stdout : list value;
  stderr : list string
}.

Definition Py (A : Type) : Type := process -> process * result A.

Definition ret {A} (a : A) : Py A := fun st => (st, Ok a).

Definition bind {A B} (c : Py A) (k : A -> Py B) : Py B :=
  fun st =>
    match c st with
    | (st', Ok a) => k a st'
    | (st', Raise e) => (st', Raise e)
    end.

Definition raise {A} (e : exn) : Py A := fun st => (st, Raise e).

Declare Scope py_scope.
Delimit Scope py_scope with py.
Notation "x <- c ;; k" := (bind c (fun x => k))
  (at level 61, c at next level, right associativity) : py_scope.
Notation "c ;; k" := (bind c (fun _ => k))
  (at level 61, right associativity) : py_scope.
Local Open Scope py_scope.

(** One [except] clause: the exceptions it matches and its body. *)
Definition clause (A : Type) : Type := ((exn -> bool) * (exn -> Py A))%type.

Fixpoint select_clause {A} (clauses : list (clause A)) (e : exn)
  : option (exn -> Py A) :=
  match clauses with
  | [] => None
  | (matches, handler) :: rest =>
      if matches e then Some handler else select_clause rest e
  end.

(** [try: body except ...]: the first clause that matches handles the
    exception; what a handler raises is not seen by the other clauses. *)
Definition try_except {A} (body : Py A) (clauses : list (clause A)) : Py A :=
  fun st =>
    match body st with
    | (st', Ok a) => (st', Ok a)
    | (st', Raise e) =>
        match select_clause clauses e with
        | Some handler => handler e st'
        | None => (st', Raise e)
        end
    end.

(** The state once [doc] has been written to the standard output. *)
Definition emit (doc : value) (st : process) : process :=
  {| server := server st; buffer := buffer st;
     stdout := (stdout st ++ [doc])%list; stderr := stderr st |}.

(** [print(json.dumps(doc), flush=True)] *)
Definition print (doc : value) : Py unit := fun st => (emit doc st, Ok tt).

(** [sys.stderr.write(text)] *)
Definition stderr_write (text : string) : Py unit :=
  fun st => ({| server := server st; buffer := buffer st;
                stdout := stdout st; stderr := (stderr st ++ [text])%list |}, Ok tt).

Definition get_buffer : Py string := fun st => (st, Ok (buffer st)).

(** The state once [buffer] has been assigned [b]. *)
Definition with_buffer (b : string) (st : process) : process :=
  {| server := server st; buffer := b; stdout := stdout st; stderr := stderr st |}.

Definition set_buffer (b : string) : Py unit := fun st => (with_buffer b st, Ok tt).

Definition set_server (s : EchoMCPServer) : Py unit :=
  fun st => ({| server := s; buffer := buffer st;
                stdout := stdout st; stderr := stderr st |}, Ok tt).

(** [sys.exit(code)] *)
Definition sys_exit {A} (code : Z) : Py A := raise (SystemExit code).

(** [obj.get(key, default)]: a [dict] answers, anything else has no
    attribute [get]. *)
Definition py_get (obj : value) (key : string) (default : value) : Py value :=
  match obj with
  | JDict d => ret (get_default d key default)
  | _ =>
      raise (Exception AttributeError
               ("'" ++ type_name obj ++ "' object has no attribute 'get'"))
  end.

Definition newline : string := String (ascii_of_nat 10) "".

(** ** The key of an environment variable

    [os.environ] encodes a key before it looks it up, with the encoding
    of the file system, UTF-8, and the error handler [surrogateescape]:
    a surrogate from U+DC80 to U+DCFF stands for a byte and passes, any
    other surrogate cannot be encoded. *)

(** The three bytes of a surrogate, U+D800 to U+DFFF. *)
Definition surrogate_bytes (a b c : ascii) : bool :=
  let x := N_of_ascii a in
  let y := N_of_ascii b in
  let z := N_of_ascii c in
  ((x =? 237) && (160 <=? y) && (y <=? 191) && (128 <=? z) && (z <=? 191))%N.

(** The code of the surrogate whose second and third bytes are given. *)
Definition surrogate_code (b c : ascii) : N :=
  (55296 + (N_of_ascii b - 160) * 64 + (N_of_ascii c - 128))%N.

(** The surrogates that [surrogateescape] turns into a byte. *)
Definition escapable (code : N) : bool :=
  ((56448 <=? code) && (code <=? 56575))%N.

(** The number of surrogates at the head of the text. *)
Fixpoint surrogate_run (s : string) : N :=
  match s with
  | String a (String b (String c rest)) =>
      if surrogate_bytes a b c then (1 + surrogate_run rest)%N else 0%N
  | _ => 0%N
  end.

(** The first surrogate of the text, from character [pos] on, that cannot
    be encoded: its code, its position, and the position of the last of
    the surrogates that follow it without a gap. *)
Fixpoint first_unencodable (pos : N) (s : string) : option (N * N * N) :=
  match s with
  | EmptyString => None
  | String a rest =>
      if PyStr.is_continuation a then first_unencodable pos rest
      else
        match rest with
        | String b (String c rest') =>
            if surrogate_bytes a b c && negb (escapable (surrogate_code b c))
            then Some (surrogate_code b c, pos, (pos + surrogate_run rest')%N)
            else first_unencodable (pos + 1)%N rest
        | _ => first_unencodable (pos + 1)%N rest
        end
  end.

Definition decimal (n : N) : string := PyStr.str_int (Z.of_N n).

(** The four hexadecimal digits of a code below 65536. *)
Definition hex4_text (n : N) : string :=
  (String (PyStr.hex_digit (n / 4096))
    (String (PyStr.hex_digit ((n / 256) mod 16))
       (String (PyStr.hex_digit ((n / 16) mod 16))
          (String (PyStr.hex_digit (n mod 16)) ""))))%N.

(** [str(e)] of the [UnicodeEncodeError] for the surrogates found. *)
Definition unencodable_text (code start last : N) : string :=
  if (start =? last)%N then
    "'utf-8' codec can't encode character '\u" ++ hex4_text code
      ++ "' in position " ++ decimal start ++ ": surrogates not allowed"
  else
    "'utf-8' codec can't encode characters in position " ++ decimal start
      ++ "-" ++ decimal last ++ ": surrogates not allowed".

(** [encodekey(key)] of [os.environ]: the key when it can be encoded. *)
Definition encodekey (key : value) : Py string :=
  match key with
  | JStr k =>
      match first_unencodable 0 k with
      | Some (code, start, last) =>
          raise (Exception UnicodeEncodeError (unencodable_text code start last))
      | None => ret k
      end
  | _ => raise (Exception TypeError ("str expected, not " ++ type_name key))
  end.

(** ** Observers of a response *)

(** [resp["id"]], when the response has the key *)
Definition response_id (resp : value) : option value :=
  match resp with
  | JDict d => dict_get d "id"
  | _ => None
  end.

(** [resp["error"]["code"]] *)
Definition error_code (resp : value) : option value :=
  match resp with
  | JDict d =>
      match dict_get d "error" with
      | Some (JDict e) => dict_get e "code"
      | _ => None
      end
  | _ => None
  end.

(** [resp["error"]["message"]] *)
Definition error_message (resp : value) : option value :=
  match resp with
  | JDict d =>
      match dict_get d "error" with
      | Some (JDict e) => dict_get e "message"
      | _ => None
      end
  | _ => None
  end.

(** ** A runtime to run the server with *)

(** [json.loads] by the reader above.  The text of the message of the
    [JSONDecodeError], which the server never reads, is not reproduced. *)
Definition text_loads (text : string) : result value :=
  match JsonText.decode text with
  | Some v => Ok v
  | None => Raise (Exception JSONDecodeError "not a JSON document")
  end.

(** An environment with two variables set. *)
Definition sample_environ (name : string) : option string :=
  if String.eqb name "HOME" then Some "/home/tester"
  else if String.eqb name "ECHO_PREFIX" then Some ">>"
  else None.

(** An environment with nothing set. *)
Definition empty_environ (name : string) : option string := None.

(** A [repr] of floats that shows the literal, which is right for the
    literals that are already the shortest form of their float. *)
Definition literal_repr (literal : string) : string := literal.

(** The [repr] of a [str] in ASCII. *)
Definition ascii_repr : string -> string := PyStr.ascii_repr.

(** The sample lines of input are written with an apostrophe where the
    text has a double quote; [quoted] gives the text. *)
Fixpoint quoted (s : string) : string :=
  match s with
  | String c s' =>
      String (if Ascii.eqb c "'"%char then "034"%char else c) (quoted s')
  | EmptyString => ""
  end.

(** Lines of input, each as [readline] returns it, and the requests
    they decode to. *)
Definition ping_line : string :=
  quoted "{'jsonrpc':'2.0','id':2,'method':'tools/call','params':{'name':'ping'}}"
  ++ newline.

Definition ping_request : dict :=
  [("jsonrpc", JStr "2.0"); ("id", JInt 2); ("method", JStr "tools/call");
   ("params", JDict [("name", JStr "ping")])].

Definition echo_request : dict :=
  [("jsonrpc", JStr "2.0"); ("id", JInt 1); ("method", JStr "tools/call");
   ("params", JDict [("name", JStr "echo");
                     ("arguments", JDict [("message", JStr "hi")])])].

(** The request [echo_request] in two reads, cut inside the version. *)
Definition echo_first : string := quoted "{'jsonrpc':'2.".

Definition echo_second : string :=
  quoted "0','id':1,'method':'tools/call','params':{'name':'echo','arguments':{'message':'hi'}}}"
  ++ newline.

(** The same request on two lines, cut between two members. *)
Definition echo_head : string := quoted "{'jsonrpc':'2.0','id':1," ++ newline.

Definition echo_tail : string :=
  quoted "'method':'tools/call','params':{'name':'echo','arguments':{'message':'hi'}}}"
  ++ newline.


Definition shutdown_line : string :=
  quoted "{'jsonrpc':'2.0','id':3,'method':'shutdown'}" ++ newline.

Definition shutdown_request : dict :=
  [("jsonrpc", JStr "2.0"); ("id", JInt 3); ("method", JStr "shutdown")].

(** A JSON array, which is a document and not an object. *)
Definition array_line : string := "[]" ++ newline.

(** A request whose [params] are an array. *)
Definition array_params_request : dict :=
  [("jsonrpc", JStr "2.0"); ("id", JInt 5); ("method", JStr "tools/call");
   ("params", JList [JInt 1])].

Fixpoint replicate (n : nat) (c : ascii) : string :=
  match n with
  | O => ""
  | S n' => String c (replicate n' c)
  end.

(** A string literal that is never closed, 10002 characters long. *)
Definition endless_line : string :=
  String "034"%char (replicate (100 * 100) "a"%char) ++ newline.

(** The request [echo_request] on three lines. *)
Definition echo_middle : string := quoted "'method':'tools/call'," ++ newline.

Definition echo_end : string :=
  quoted "'params':{'name':'echo','arguments':{'message':'hi'}}}" ++ newline.




(** Four arrays opened at once, on one line. *)
Definition deep_line : string := "[[[[1]]]]" ++ newline.

(** The text [piece], [n] times. *)
Fixpoint repeat_text (n : nat) (piece : string) : string :=
  match n with
  | O => ""
  | S n' => piece ++ repeat_text n' piece
  end.

(** The letter e with an acute accent: one character, two bytes. *)
Definition e_acute : string :=
  String (ascii_of_nat 195) (String (ascii_of_nat 169) "").

(** A string literal that is never closed, of 6002 characters in 12002
    bytes. *)
Definition accent_line : string :=
  String "034"%char (repeat_text (60 * 100) e_acute) ++ newline.



(** A [json.loads] on an interpreter that gives up on a text that opens
    four arrays at once, as the real one does on its own limit. *)
Definition limited_loads (text : string) : result value :=
  match JsonText.strip_prefix "[[[[" text with
  | Some _ =>
      Raise (Exception RecursionError
               "maximum recursion depth exceeded while decoding a JSON array from a unicode string")
  | None => text_loads text
  end.

Section Server.

(** [repr] of the float a literal denotes *)
Variable float_repr : string -> string.
(** [repr] of a [str] *)
Variable str_repr : string -> string.
(** the process environment: a variable's value when it is set *)
Variable environ : string -> option string.
(** [json.loads] *)
Variable json_loads : string -> result value.

(** [str(v)], the rendering of an f-string field [{v}] *)
Definition str (v : value) : string := PyStr.str float_repr str_repr v.

(** [os.environ.get(key, default)]: the key is encoded first, which
    refuses whatever is not a [str] and a [str] it cannot encode. *)
Definition os_environ_get (key : value) (default : value) : Py value :=
  k <- encodekey key ;;
  ret (match environ k with Some v => JStr v | None => default end).

Definition EchoMCPServer_init : EchoMCPServer := {| message_id := 0 |}.

(** The [response] that [send_response] builds. *)
Definition success_response (request_id : value) (result : value) : value :=
  JDict [("jsonrpc", JStr "2.0"); ("id", request_id); ("result", result)].

Definition send_response (request_id : value) (result : value) : Py unit :=
  print (success_response request_id result).

(** The [response] that [send_error] builds. *)
Definition error_response (request_id : value) (code : Z) (message : string)
  : value :=
  JDict [("jsonrpc", JStr "2.0"); ("id", request_id);
         ("error", JDict [("code", JInt code); ("message", JStr message)])].

Definition send_error (request_id : value) (code : Z) (message : string)
  : Py unit :=
  print (error_response request_id code message).

(** The [result] of [initialize]. *)
Definition initialize_result : value :=
  JDict [
    ("protocolVersion", JStr "1.0");
    ("serverInfo", JDict [
      ("name", JStr "echo-test-server-python");
      ("version", JStr "1.0.0")]);
    ("capabilities", JDict [
      ("tools", JDict [
        ("available", JList [
          JDict [
            ("name", JStr "echo");
            ("description", JStr "Echoes back the input message");
            ("inputSchema", JDict [
              ("type", JStr "object");
              ("properties", JDict [
                ("message", JDict [
                  ("type", JStr "string");
                  ("description", JStr "The message to echo")])]);
              ("required", JList [JStr "message"])])];
          JDict [
            ("name", JStr "ping");
            ("description", JStr "Returns 'pong'");
            ("inputSchema", JDict [
              ("type", JStr "object");
              ("properties", JDict [])])];
          JDict [
            ("name", JStr "get_env");
            ("description", JStr "Get an environment variable");
            ("inputSchema", JDict [
              ("type", JStr "object");
              ("properties", JDict [
                ("name", JDict [
                  ("type", JStr "string");
                  ("description", JStr "Environment variable name")])]);
              ("required", JList [JStr "name"])])]])])])].

(** The body of the [try] in [handle_request]. *)
Definition dispatch (request : value) : Py unit :=
  request_id <- py_get request "id" JNull ;;
  method <- py_get request "method" JNull ;;
  params <- py_get request "params" (JDict []) ;;
  if eq_str method "initialize" then
    send_response request_id initialize_result
  else if eq_str method "tools/call" then
    tool_name <- py_get params "name" JNull ;;
    args <- py_get params "arguments" (JDict []) ;;
    if eq_str tool_name "echo" then
      message <- py_get args "message" (JStr "") ;;
      prefix <- os_environ_get (JStr "ECHO_PREFIX") (JStr "[ECHO]") ;;
      send_response request_id
        (JDict [("output", JStr (str prefix ++ " " ++ str message))])
    else if eq_str tool_name "ping" then
      send_response request_id (JDict [("output", JStr "pong")])
    else if eq_str tool_name "get_env" then
      var_name <- py_get args "name" (JStr "") ;;
      value <- os_environ_get var_name
                 (JStr ("<" ++ str var_name ++ " not set>")) ;;
      send_response request_id
        (JDict [("output", JStr (str var_name ++ "=" ++ str value))])
    else
      send_error request_id (-32601) ("Unknown tool: " ++ str tool_name)
  else if eq_str method "shutdown" then
    send_response request_id (JDict []) ;;
    sys_exit 0
  else
    send_error request_id (-32601) ("Method not found: " ++ str method).

Definition handle_request (request : value) : Py unit :=
  try_except (dispatch request)
    [(is_Exception,
      fun e =>
        request_id <- py_get request "id" JNull ;;
        send_error request_id (-32603) ("Internal error: " ++ exn_str e))].

(** The document [main] prints when it gives a buffer up. *)
Definition parse_error_response : value :=
  JDict [("jsonrpc", JStr "2.0");
         ("error", JDict [("code", JInt (-32700));
                          ("message", JStr "Parse error")])].

(** [json.loads(buffer)] as a computation *)
Definition loads (text : string) : Py value :=
  fun st => (st, json_loads text).

(** One turn of the [while] loop of [main], once [readline] has given a
    line that is not empty. *)
Definition read_step (line : string) : Py unit :=
  b <- get_buffer ;;
  set_buffer (b ++ line) ;;
  try_except
    (b <- get_buffer ;;
     request <- loads b ;;
     set_buffer "" ;;
     handle_request request)
    [(is_JSONDecodeError,
      fun _ =>
        b <- get_buffer ;;
        if (10000 <? Z.of_nat (PyStr.py_len b))%Z then
          set_buffer "" ;;
          print parse_error_response
        else ret tt)].

(** The [while True] loop over what [sys.stdin.readline()] returns, one
    element of [stdin] per call; at the end of the input it returns the
    empty string, and an empty line ends the loop. *)
Fixpoint main_loop (stdin : list string) : Py unit :=
  match stdin with
  | [] => ret tt
  | line :: rest =>
      if String.eqb line "" then ret tt
      else read_step line ;; main_loop rest
  end.

(** What [main] does before its loop: the server object, the empty
    buffer, the line on the standard error. *)
Definition startup : Py unit :=
  set_server EchoMCPServer_init ;;
  set_buffer "" ;;
  stderr_write ("Python Echo MCP Server started" ++ newline).

Definition main (stdin : list string) : Py unit :=
  startup ;;
  try_except (main_loop stdin)
    [(is_KeyboardInterrupt, fun _ => sys_exit 0);
     (is_Exception,
      fun e =>
        stderr_write ("Server error: " ++ exn_str e ++ newline) ;;
        sys_exit 1)].

(** The process before [main] has run: nothing written yet. *)
Definition process_start : process :=
  {| server := EchoMCPServer_init; buffer := ""; stdout := []; stderr := [] |}.

(** The exit status of the interpreter for the way [main] ended. *)
Definition exit_status (r : result unit) : Z :=
  match r with
  | Ok _ => 0
  | Raise (SystemExit code) => code
  | Raise _ => 1
  end.

(** A whole run: what was printed and the exit status. *)
Definition run (stdin : list string) : list value * Z :=
  let (st, r) := main stdin process_start in (stdout st, exit_status r).

(** ** Vocabulary of the properties *)

(** What a response is: one of the two documents the encoders build. *)
Definition is_success (resp : value) : Prop :=
  exists request_id result, resp = success_response request_id result.

Definition is_error (resp : value) : Prop :=
  exists request_id code message, resp = error_response request_id code message.

(** [resp] is a response to the request [d]: a success or an error, with
    the [id] of [d] when [d] has one. *)
Definition answers (d : dict) (resp : value) : Prop :=
  (is_success resp \/ is_error resp) /\
  forall request_id, dict_get d "id" = Some request_id ->
                     response_id resp = Some request_id.

(** The process when the loop of [main] is entered. *)
Definition started : process := fst (startup process_start).

(** An [id] that is no array and no object, and whose digits, when it is
    an integer, are within what the interpreter turns into text whatever
    its limit is set to. *)
Definition plain_id (v : value) : Prop :=
  match v with
  | JNull | JBool _ | JFloat _ | JStr _ => True
  | JInt z => (Z.abs z < 10 ^ 640)%Z
  | JList _ | JDict _ => False
  end.

(** The state once the documents [docs] have been written, in order. *)
Definition emit_all (docs : list value) (st : process) : process :=
  {| server := server st; buffer := buffer st;
     stdout := (stdout st ++ docs)%list; stderr := stderr st |}.

(** The reads [chunks], added to the buffer [buf], deliver the document
    [request]: no read is empty, the text is no JSON document before the
    last read and never longer than the ceiling, and with the last read it
    decodes to [request]. *)
Fixpoint delivers (buf : string) (chunks : list string) (request : value)
  : Prop :=
  match chunks with
  | [] => False
  | chunk :: more =>
      chunk <> "" /\
      match more with
      | [] => json_loads (buf ++ chunk) = Ok request
      | _ :: _ =>
          (exists msg,
             json_loads (buf ++ chunk) = Raise (Exception JSONDecodeError msg)) /\
          (Z.of_nat (String.length (buf ++ chunk)) <= 10000)%Z /\
          delivers (buf ++ chunk) more request
      end
  end.

(** The reads [chunks], added to the buffer [buf], complete no document:
    no read is empty, and after each of them the text is no JSON document
    and is within the ceiling. *)
Fixpoint pending (buf : string) (chunks : list string) : Prop :=
  match chunks with
  | [] => True
  | chunk :: more =>
      chunk <> "" /\
      (exists msg,
         json_loads (buf ++ chunk) = Raise (Exception JSONDecodeError msg)) /\
      (Z.of_nat (String.length (buf ++ chunk)) <= 10000)%Z /\
      pending (buf ++ chunk) more
  end.

(** The reads, one after the other, as one text. *)
Fixpoint joined (chunks : list string) : string :=
  match chunks with
  | [] => ""
  | chunk :: more => chunk ++ joined more
  end.

(** The documents the program can write: a success, an error with one of
    the two codes of the dispatcher, or the parse error of the reader. *)
Definition envelope (doc : value) : Prop :=
  is_success doc \/
  (exists request_id message, doc = error_response request_id (-32601) message) \/
  (exists request_id message, doc = error_response request_id (-32603) message) \/
  doc = parse_error_response.


(** Unfolds the dispatcher down to the state function. *)
Ltac run_dispatch :=
  cbv [handle_request dispatch try_except bind py_get ret raise send_response
       send_error print sys_exit os_environ_get encodekey select_clause
       is_Exception];
  try change (first_unencodable 0 "ECHO_PREFIX") with (@None (N * N * N)%type).

(** Splits on the next test the dispatcher makes. *)
Ltac next_test :=
  match goal with
  | |- context [if eq_str ?v ?s then _ else _] => destruct (eq_str v s) eqn:?
  | |- context [match ?v with JDict _ => _ | _ => _ end] => destruct v eqn:?
  | |- context [match first_unencodable 0 ?k with Some _ => _ | None => _ end] =>
      destruct (first_unencodable 0 k) as [[[? ?] ?]|] eqn:?
  | |- context [match environ ?k with Some _ => _ | None => _ end] =>
      destruct (environ k) eqn:?
  end.


(** ** Properties *)

(** *** The monad and the dictionaries *)

Lemma eq_str_true (v : value) (s : string) :
  eq_str v s = true -> v = JStr s.
Proof.
  destruct v; simpl; try discriminate.
  intros H. apply String.eqb_eq in H. now subst.
Qed.

Lemma get_default_some (d : dict) (key : string) (default v : value) :
  dict_get d key = Some v -> get_default d key default = v.
Proof. unfold get_default. now intros ->. Qed.

Lemma with_buffer_same (st : process) : with_buffer (buffer st) st = st.
Proof. now destruct st. Qed.

Lemma with_buffer_clear (st : process) :
  buffer st = "" -> with_buffer "" st = st.
Proof. intros H. rewrite <- H at 1. apply with_buffer_same. Qed.

Lemma with_buffer_twice (a b : string) (st : process) :
  with_buffer a (with_buffer b st) = with_buffer a st.
Proof. reflexivity. Qed.

(** *** The dispatcher on a JSON object *)

(** On an object the dispatcher writes one response, which carries the
    [id] of the request, and it either returns or exits with status 0. *)
Lemma handle_request_object (d : dict) (st : process) :
  exists resp r,
    handle_request (JDict d) st = (emit resp st, r) /\
    response_id resp = Some (get_default d "id" JNull) /\
    (is_success resp \/ is_error resp) /\
    r = if eq_str (get_default d "method" JNull) "shutdown"
        then Raise (SystemExit 0) else Ok tt.
Proof.
  run_dispatch.
  repeat next_test;
    repeat match goal with
    | H : eq_str _ _ = true |- _ => apply eq_str_true in H; rewrite H in *
    end;
    try discriminate;
    simpl;
    do 2 eexists; (split; [reflexivity|]); (split; [reflexivity|]);
    (split; [|try reflexivity]);
    first [ left; eexists; eexists; reflexivity
          | right; eexists; eexists; eexists; reflexivity ].
Qed.

(** A document that is not an object has no [get]: the fault of the
    [try] body is met again in the handler, and it leaves the dispatcher
    with nothing written. *)
Lemma handle_request_non_object (request : value) (st : process) :
  (forall d, request <> JDict d) ->
  handle_request request st =
    (st, Raise (Exception AttributeError
                  ("'" ++ type_name request ++ "' object has no attribute 'get'"))).
Proof.
  intros Hnot. run_dispatch.
  destruct request; try reflexivity.
  now destruct (Hnot l).
Qed.

(** The dispatcher never leaves with a [JSONDecodeError]. *)
Lemma handle_request_no_decode_error (request : value) (st st' : process) (e : exn) :
  handle_request request st = (st', Raise e) -> is_JSONDecodeError e = false.
Proof.
  destruct request as [ | b | z | f | s | l | d ];
    try (rewrite handle_request_non_object by discriminate;
         intros [= _ <-]; reflexivity).
  destruct (handle_request_object d st) as (resp & r & -> & _ & _ & ->).
  destruct (eq_str _ _); intros [= _ <-]; reflexivity.
Qed.

(** *** The reader *)

(** A buffer that decodes is cleared and its document dispatched. *)
Lemma read_step_parsed (line : string) (request : value) (st : process) :
  json_loads (buffer st ++ line) = Ok request ->
  read_step line st = handle_request request (with_buffer "" st).
Proof.
  intros Hload.
  unfold read_step, bind, get_buffer, set_buffer, try_except, loads. simpl.
  rewrite Hload.
  destruct (handle_request request _) as [st' [[]|e]] eqn:Hreq; try reflexivity.
  apply handle_request_no_decode_error in Hreq.
  unfold select_clause. now rewrite Hreq.
Qed.

(** A text has at most as many characters as bytes. *)
Lemma py_len_le_length (s : string) :
  (PyStr.py_len s <= String.length s)%nat.
Proof.
  induction s as [ | c s IH ]; simpl; [lia|].
  destruct (PyStr.is_continuation c); lia.
Qed.

(** A buffer that does not decode and has at most 10000 characters is
    kept. *)
Lemma read_step_retained_chars (line msg : string) (st : process) :
  json_loads (buffer st ++ line) = Raise (Exception JSONDecodeError msg) ->
  (Z.of_nat (PyStr.py_len (buffer st ++ line)) <= 10000)%Z ->
  read_step line st = (with_buffer (buffer st ++ line) st, Ok tt).
Proof.
  intros Hload Hlen.
  unfold read_step, bind, get_buffer, set_buffer, try_except, loads. simpl.
  rewrite Hload. simpl.
  destruct (Z.ltb_spec 10000 (Z.of_nat (PyStr.py_len (buffer st ++ line))));
    [lia | reflexivity].
Qed.

(** A buffer that does not decode and is within the ceiling is kept. *)
Lemma read_step_retained (line msg : string) (st : process) :
  json_loads (buffer st ++ line) = Raise (Exception JSONDecodeError msg) ->
  (Z.of_nat (String.length (buffer st ++ line)) <= 10000)%Z ->
  read_step line st = (with_buffer (buffer st ++ line) st, Ok tt).
Proof.
  intros Hload Hlen.
  apply read_step_retained_chars with msg; [exact Hload|].
  pose proof (py_len_le_length (buffer st ++ line)). lia.
Qed.

(** A buffer that does not decode and has more than 10000 characters is
    given up. *)
Lemma read_step_overflow (line msg : string) (st : process) :
  json_loads (buffer st ++ line) = Raise (Exception JSONDecodeError msg) ->
  (10000 < Z.of_nat (PyStr.py_len (buffer st ++ line)))%Z ->
  read_step line st = (emit parse_error_response (with_buffer "" st), Ok tt).
Proof.
  intros Hload Hlen.
  unfold read_step, bind, get_buffer, set_buffer, try_except, loads. simpl.
  rewrite Hload. simpl.
  destruct (Z.ltb_spec 10000 (Z.of_nat (PyStr.py_len (buffer st ++ line))));
    [reflexivity | lia].
Qed.

Lemma main_loop_cons (line : string) (rest : list string) :
  line <> "" ->
  main_loop (line :: rest) = (read_step line ;; main_loop rest).
Proof.
  intros Hline. simpl.
  destruct (String.eqb_spec line ""); [contradiction | reflexivity].
Qed.

(** The reads that deliver a request lead to one dispatch of it, with the
    buffer clear, and the loop goes on with the reads that follow. *)
Lemma main_loop_delivers (chunks rest : list string) (request : value) :
  forall st,
    delivers (buffer st) chunks request ->
    main_loop (chunks ++ rest)%list st =
      (handle_request request ;; main_loop rest) (with_buffer "" st).
Proof.
  induction chunks as [ | chunk more IH ]; intros st Hd; [destruct Hd|].
  destruct Hd as [Hne Hd].
  rewrite <- app_comm_cons, main_loop_cons by assumption.
  destruct more as [ | chunk' more' ].
  - unfold bind at 1. rewrite (read_step_parsed _ _ _ Hd). reflexivity.
  - destruct Hd as ((msg & Hload) & Hlen & Hd).
    unfold bind at 1. rewrite (read_step_retained _ _ _ Hload Hlen).
    rewrite IH by exact Hd. reflexivity.
Qed.

Lemma emit_all_emit (docs : list value) (doc : value) (st : process) :
  emit_all docs (emit doc st) = emit_all (doc :: docs) st.
Proof.
  unfold emit_all, emit. simpl. now rewrite <- app_assoc.
Qed.

Lemma answers_of_object (d : dict) (resp : value) :
  response_id resp = Some (get_default d "id" JNull) ->
  is_success resp \/ is_error resp ->
  answers d resp.
Proof.
  intros Hid Hkind. split; [exact Hkind|].
  intros request_id Hd. now rewrite Hid, (get_default_some _ _ _ _ Hd).
Qed.

(** *** Every request gets its response, in the order of arrival *)

(** X20. Requests whose [id] is plain: after any number of them that
    were delivered and answered, a request that is delivered gets exactly
    one response, written after the responses to the requests before it;
    each response is a success or an error and carries the [id] of its
    own request.  After a [shutdown] nothing more is read; otherwise the
    loop goes on. *)
Theorem requests_answered_once_in_order
    (earlier : list (list string * dict)) (chunks : list string) (d : dict)
    (rest : list string) (st : process) :
  buffer st = "" ->
  Forall (fun m => delivers "" (fst m) (JDict (snd m)) /\
                   eq_str (get_default (snd m) "method" JNull) "shutdown" = false /\
                   plain_id (get_default (snd m) "id" JNull))
         earlier ->
  delivers "" chunks (JDict d) ->
  plain_id (get_default d "id" JNull) ->
  exists resps resp,
    Forall2 answers (map snd earlier) resps /\
    answers d resp /\
    main_loop (concat (map fst earlier) ++ chunks ++ rest)%list st =
      if eq_str (get_default d "method" JNull) "shutdown"
      then (emit_all (resps ++ [resp]) st, Raise (SystemExit 0))
      else main_loop rest (emit_all (resps ++ [resp]) st).
Proof.
  intros Hbuf Hearlier Hd _. revert st Hbuf Hearlier Hd.
  induction earlier as [ | [chunks0 d0] earlier IH ]; intros st Hbuf Hearlier Hd.
  - destruct (handle_request_object d st) as (resp & r & Hrun & Hid & Hkind & Hr).
    exists [], resp. split; [constructor|].
    split; [now apply answers_of_object|].
    simpl concat. rewrite app_nil_l.
    rewrite main_loop_delivers with (request := JDict d)
      by (rewrite Hbuf; exact Hd).
    rewrite (with_buffer_clear _ Hbuf).
    unfold bind. rewrite Hrun, Hr.
    destruct (eq_str _ _); reflexivity.
  - inversion Hearlier as [ | m ms (Hd0 & Hnot & _) Hrest ]; subst.
    simpl in Hd0, Hnot.
    destruct (handle_request_object d0 st) as (resp0 & r0 & Hrun & Hid & Hkind & Hr).
    rewrite Hnot in Hr. subst r0.
    destruct (IH (emit resp0 st) Hbuf Hrest Hd) as (resps & resp & Hall & Hans & Hloop).
    exists (resp0 :: resps), resp.
    split; [constructor; [now apply answers_of_object | exact Hall]|].
    split; [exact Hans|].
    simpl concat. simpl map. rewrite <- app_assoc.
    rewrite main_loop_delivers with (request := JDict d0)
      by (rewrite Hbuf; exact Hd0).
    rewrite (with_buffer_clear _ Hbuf).
    unfold bind. rewrite Hrun, Hloop.
    rewrite <- app_comm_cons, !emit_all_emit. reflexivity.
Qed.

(** *** Requests that arrive in pieces *)

(** C3. A request that comes in two reads: after the first, which alone
    is no JSON document and is within the ceiling of 10000 characters (so
    in particular when it is below it), the buffer holds the first read,
    nothing is written and nothing is dispatched; the second read
    completes the text, which is decoded, and the request is dispatched
    once, with the buffer clear, before the loop goes on. *)
Theorem split_request_dispatched_once
    (first second msg : string) (request : value) (rest : list string)
    (st : process) :
  buffer st = "" ->
  first <> "" ->
  second <> "" ->
  json_loads first = Raise (Exception JSONDecodeError msg) ->
  (Z.of_nat (String.length first) <= 10000)%Z ->
  json_loads (first ++ second) = Ok request ->
  read_step first st = (with_buffer first st, Ok tt) /\
  read_step second (with_buffer first st) = handle_request request st /\
  main_loop (first :: second :: rest) st =
    (handle_request request ;; main_loop rest) st.
Proof.
  intros Hbuf Hfirst Hsecond Hfail Hlen Hload.
  assert (H1 : read_step first st = (with_buffer first st, Ok tt)).
  { rewrite (read_step_retained first msg st); rewrite Hbuf; auto. }
  assert (H2 : read_step second (with_buffer first st) = handle_request request st).
  { rewrite (read_step_parsed second request); [|exact Hload].
    now rewrite with_buffer_twice, with_buffer_clear. }
  repeat split; [exact H1 | exact H2 |].
  rewrite main_loop_cons by assumption.
  unfold bind at 1. rewrite H1.
  rewrite main_loop_cons by assumption.
  unfold bind. now rewrite H2.
Qed.

(** *** Text that never becomes a document *)

(** C4, as amended.  When the buffer with the new line is no JSON
    document and has more than 10000 characters, counted as [len] counts
    them and not in bytes, the turn of the loop clears the buffer and
    writes one document and nothing else: the parse error, with code
    -32700, message "Parse error" and no [id].  Nothing is dispatched,
    and the loop goes on from the empty buffer. *)
Theorem oversized_buffer_given_up
    (line msg : string) (rest : list string) (st : process) :
  line <> "" ->
  json_loads (buffer st ++ line) = Raise (Exception JSONDecodeError msg) ->
  (10000 < Z.of_nat (PyStr.py_len (buffer st ++ line)))%Z ->
  read_step line st = (emit parse_error_response (with_buffer "" st), Ok tt) /\
  error_code parse_error_response = Some (JInt (-32700)) /\
  error_message parse_error_response = Some (JStr "Parse error") /\
  response_id parse_error_response = None /\
  buffer (emit parse_error_response (with_buffer "" st)) = "" /\
  main_loop (line :: rest) st =
    main_loop rest (emit parse_error_response (with_buffer "" st)).
Proof.
  intros Hline Hfail Hlen.
  pose proof (read_step_overflow line msg st Hfail Hlen) as Hstep.
  repeat split; try reflexivity; [exact Hstep|].
  rewrite main_loop_cons by assumption.
  unfold bind. now rewrite Hstep.
Qed.

(** *** Shutdown *)

(** Reads of which none is empty are all consumed before the reads that
    follow them. *)
Lemma main_loop_app (pre more : list string) :
  Forall (fun line => line <> "") pre ->
  forall st, main_loop (pre ++ more)%list st = (main_loop pre ;; main_loop more) st.
Proof.
  induction 1 as [ | line pre Hline _ IH ]; intros st; [reflexivity|].
  rewrite <- app_comm_cons, !main_loop_cons by assumption.
  unfold bind.
  destruct (read_step line st) as [st' [[]|e]]; [|reflexivity].
  rewrite IH. reflexivity.
Qed.

Lemma main_from_start (stdin : list string) :
  main stdin process_start =
    try_except (main_loop stdin)
      [(is_KeyboardInterrupt, fun _ => sys_exit 0);
       (is_Exception,
        fun e =>
          stderr_write ("Server error: " ++ exn_str e ++ newline) ;;
          sys_exit 1)] started.
Proof. reflexivity. Qed.


(** X21. A [shutdown] request whose [id] is plain is answered by a
    success with the empty [result], and the process then ends with
    status 0: whatever reads would have followed are not processed, the
    output ends with that response.  A request with a plain [id] and any
    other method lets the dispatcher return, so that the loop goes on. *)
Theorem shutdown_ends_the_process
    (d : dict) (pre : list string) (line : string) (rest : list string)
    (st : process) :
  dict_get d "method" = Some (JStr "shutdown") ->
  plain_id (get_default d "id" JNull) ->
  Forall (fun l => l <> "") pre ->
  main_loop pre started = (st, Ok tt) ->
  line <> "" ->
  json_loads (buffer st ++ line) = Ok (JDict d) ->
  let resp := success_response (get_default d "id" JNull) (JDict []) in
  handle_request (JDict d) (with_buffer "" st) =
    (emit resp (with_buffer "" st), Raise (SystemExit 0)) /\
  run (pre ++ line :: rest) = ((stdout st ++ [resp])%list, 0%Z) /\
  (forall d' st',
     eq_str (get_default d' "method" JNull) "shutdown" = false ->
     plain_id (get_default d' "id" JNull) ->
     exists resp', handle_request (JDict d') st' = (emit resp' st', Ok tt)).
Proof.
  intros Hmethod _ Hpre Hrun Hline Hload resp.
  assert (Hexit : forall st0, handle_request (JDict d) st0 =
                               (emit resp st0, Raise (SystemExit 0))).
  { intros st0. run_dispatch.
    rewrite (get_default_some d "method" JNull _ Hmethod). reflexivity. }
  split; [apply Hexit|]. split.
  - unfold run. rewrite main_from_start. unfold try_except.
    rewrite main_loop_app by assumption.
    unfold bind at 1. rewrite Hrun.
    rewrite main_loop_cons by assumption.
    unfold bind. rewrite (read_step_parsed _ _ _ Hload), Hexit.
    reflexivity.
  - intros d' st' Hnot _.
    destruct (handle_request_object d' st') as (resp' & r & Hreq & _ & _ & Hr).
    rewrite Hnot in Hr. subst r. now exists resp'.
Qed.

(** *** The tools *)





(** *** Faults inside the dispatcher *)

(** On an object, a fault of the [try] body is reported: the response is
    the internal error with the text of the exception and the [id] of the
    request, and the dispatcher returns. *)
Lemma object_fault_reported
    (d : dict) (cls : error_class) (msg : string) (st st' : process) :
  dispatch (JDict d) st = (st', Raise (Exception cls msg)) ->
  handle_request (JDict d) st =
    (emit (error_response (get_default d "id" JNull) (-32603)
             ("Internal error: " ++ msg)) st', Ok tt).
Proof.
  intros Hfault. unfold handle_request, try_except. rewrite Hfault.
  reflexivity.
Qed.

(** A document that is not an object, once decoded, ends the loop with
    the [AttributeError]: nothing is written for it and the reads after it
    are not processed. *)
Lemma non_object_ends_loop
    (request : value) (line : string) (rest : list string) (st : process) :
  (forall d, request <> JDict d) ->
  line <> "" ->
  json_loads (buffer st ++ line) = Ok request ->
  main_loop (line :: rest) st =
    (with_buffer "" st,
     Raise (Exception AttributeError
              ("'" ++ type_name request ++ "' object has no attribute 'get'"))).
Proof.
  intros Hnot Hline Hload.
  rewrite main_loop_cons by assumption. unfold bind.
  rewrite (read_step_parsed _ _ _ Hload).
  now rewrite handle_request_non_object.
Qed.

(** *** The state of the session *)

Lemma emit_all_nil (st : process) : emit_all [] st = st.
Proof. destruct st. unfold emit_all. simpl. now rewrite app_nil_r. Qed.

(** What the dispatcher writes and how it ends do not depend on the
    state it is run from. *)
Lemma handle_request_stateless (request : value) (st1 st2 : process) :
  exists docs r,
    handle_request request st1 = (emit_all docs st1, r) /\
    handle_request request st2 = (emit_all docs st2, r).
Proof.
  destruct request as [ | b | z | f | s | l | d ];
    try (exists []; eexists; rewrite !emit_all_nil;
         split; apply handle_request_non_object; discriminate).
  run_dispatch.
  repeat next_test;
    match goal with
    | |- exists docs r, (emit ?doc _, _) = _ /\ _ =>
        exists [doc]; eexists; split; reflexivity
    end.
Qed.

Lemma handle_request_frame (request : value) (st : process) :
  server (fst (handle_request request st)) = server st /\
  buffer (fst (handle_request request st)) = buffer st /\
  stderr (fst (handle_request request st)) = stderr st.
Proof.
  destruct (handle_request_stateless request st st) as (docs & r & -> & _).
  now repeat split.
Qed.

Lemma read_step_server (line : string) (st : process) :
  server (fst (read_step line st)) = server st.
Proof.
  destruct (json_loads (buffer st ++ line)) as [request|e] eqn:Hload.
  - rewrite (read_step_parsed _ _ _ Hload).
    now destruct (handle_request_frame request (with_buffer "" st)) as (-> & _).
  - unfold read_step, bind, get_buffer, set_buffer, try_except, loads. simpl.
    rewrite Hload. simpl.
    destruct (is_JSONDecodeError e); [|reflexivity].
    destruct (10000 <? _)%Z; reflexivity.
Qed.

Lemma main_loop_server (stdin : list string) :
  forall st, server (fst (main_loop stdin st)) = server st.
Proof.
  induction stdin as [ | line rest IH ]; intros st; [reflexivity|].
  simpl. destruct (String.eqb line ""); [reflexivity|].
  unfold bind.
  pose proof (read_step_server line st) as Hstep.
  destruct (read_step line st) as [st' [[]|e]]; simpl in *; [|exact Hstep].
  now rewrite IH.
Qed.

(** C9. Handling a document leaves the server object, and with it the
    counter [message_id], as it was, and leaves the buffer as it was;
    what is written and how the handling ends are the same from any two
    states, so that nothing of the state is read; and through a whole run
    of [main] the counter is the 0 it is created with. *)
Theorem dispatch_keeps_session_state
    (request : value) (stdin : list string) (st st2 : process) :
  server (fst (handle_request request st)) = server st /\
  buffer (fst (handle_request request st)) = buffer st /\
  (exists docs r,
     handle_request request st = (emit_all docs st, r) /\
     handle_request request st2 = (emit_all docs st2, r)) /\
  server (fst (main_loop stdin st)) = server st /\
  message_id (server (fst (main stdin st))) = 0%Z.
Proof.
  destruct (handle_request_frame request st) as (Hserver & Hbuffer & _).
  repeat split; try assumption.
  - apply handle_request_stateless.
  - apply main_loop_server.
  - unfold main, bind, startup, set_server, set_buffer, stderr_write, try_except.
    simpl.
    match goal with
    | |- context [main_loop stdin ?s] =>
        pose proof (main_loop_server stdin s) as Hloop;
        destruct (main_loop stdin s) as [st' [[]|e]]
    end; simpl in *.
    + now rewrite Hloop.
    + destruct (is_KeyboardInterrupt e); simpl; [now rewrite Hloop|].
      destruct (is_Exception e); simpl; now rewrite Hloop.
Qed.

(** ** Further properties of the dispatcher *)











(** X10. A request without [id] is answered all the same, by one
    response whose [id] is null. *)
Theorem request_without_id_answered (d : dict) (st : process) :
  dict_get d "id" = None ->
  exists resp r,
    handle_request (JDict d) st = (emit resp st, r) /\
    response_id resp = Some JNull /\
    (is_success resp \/ is_error resp).
Proof.
  intros Hid.
  destruct (handle_request_object d st) as (resp & r & Hrun & Hresp & Hkind & _).
  exists resp, r. repeat split; try assumption.
  rewrite Hresp. unfold get_default. now rewrite Hid.
Qed.

(** X11. Of a request only [id], [method] and [params] are read: two
    objects with the same three fields are handled alike, whatever else
    they hold, the [jsonrpc] field included. *)
Theorem only_three_fields_read (d d' : dict) (st : process) :
  dict_get d "id" = dict_get d' "id" ->
  dict_get d "method" = dict_get d' "method" ->
  dict_get d "params" = dict_get d' "params" ->
  handle_request (JDict d) st = handle_request (JDict d') st.
Proof.
  intros Hid Hmethod Hparams.
  run_dispatch. unfold get_default. rewrite Hid, Hmethod, Hparams.
  reflexivity.
Qed.

(** ** Further properties of the reader and of [main] *)

Lemma string_app_assoc (a b c : string) : (a ++ b) ++ c = a ++ b ++ c.
Proof. induction a as [ | ch a IH ]; simpl; [reflexivity | now rewrite IH]. Qed.

Lemma string_app_nil (a : string) : a ++ "" = a.
Proof. induction a as [ | ch a IH ]; simpl; [reflexivity | now rewrite IH]. Qed.

(** Reads that complete no document are gathered in the buffer, and
    nothing else happens. *)
Lemma main_loop_pending (chunks : list string) :
  forall st,
    pending (buffer st) chunks ->
    main_loop chunks st = (with_buffer (buffer st ++ joined chunks) st, Ok tt).
Proof.
  induction chunks as [ | chunk more IH ]; intros st Hp.
  - simpl. now rewrite string_app_nil, with_buffer_same.
  - destruct Hp as (Hne & (msg & Hload) & Hlen & Hmore).
    rewrite main_loop_cons by assumption. unfold bind.
    rewrite (read_step_retained _ _ _ Hload Hlen).
    rewrite IH by exact Hmore.
    simpl joined. simpl buffer.
    now rewrite with_buffer_twice, string_app_assoc.
Qed.

Lemma delivers_pending (chunks : list string) (last : string) (request : value) :
  forall buf, delivers buf (chunks ++ [last])%list request -> pending buf chunks.
Proof.
  induction chunks as [ | chunk more IH ]; intros buf Hd; [exact I|].
  destruct more as [ | chunk' more' ].
  - destruct Hd as (Hne & Hload & Hlen & _).
    exact (conj Hne (conj Hload (conj Hlen I))).
  - destruct Hd as (Hne & Hload & Hlen & Hd).
    exact (conj Hne (conj Hload (conj Hlen (IH _ Hd)))).
Qed.

(** X12. A request that comes in any number of reads: as long as the
    last one is missing, the reads are gathered in the buffer and nothing
    is written; with the last one the request is dispatched once, with
    the buffer clear, and the loop goes on. *)
Theorem request_in_many_reads
    (chunks : list string) (last : string) (request : value)
    (rest : list string) (st : process) :
  delivers (buffer st) (chunks ++ [last])%list request ->
  main_loop chunks st = (with_buffer (buffer st ++ joined chunks) st, Ok tt) /\
  main_loop (chunks ++ last :: rest)%list st =
    (handle_request request ;; main_loop rest) (with_buffer "" st).
Proof.
  intros Hd. split.
  - apply main_loop_pending. now apply delivers_pending with last request.
  - change (last :: rest)%list with ([last] ++ rest)%list.
    rewrite app_assoc. now apply main_loop_delivers.
Qed.

(** X13. Text that is no document when the input ends is dropped: with
    reads that complete no document the run writes nothing and ends with
    status 0, the text still in the buffer. *)
Theorem unfinished_text_is_dropped (chunks : list string) :
  pending "" chunks ->
  main_loop chunks started = (with_buffer (joined chunks) started, Ok tt) /\
  run chunks = ([], 0%Z).
Proof.
  intros Hp.
  assert (Hloop : main_loop chunks started =
                    (with_buffer (joined chunks) started, Ok tt))
    by exact (main_loop_pending chunks started Hp).
  split; [exact Hloop|].
  unfold run. rewrite main_from_start. unfold try_except.
  now rewrite Hloop.
Qed.


Lemma read_step_buffer_bound (line : string) (st st1 : process) :
  read_step line st = (st1, Ok tt) ->
  (Z.of_nat (PyStr.py_len (buffer st1)) <= 10000)%Z.
Proof.
  destruct (json_loads (buffer st ++ line)) as [request|e] eqn:Hload.
  - rewrite (read_step_parsed _ _ _ Hload). intros Hrun.
    destruct (handle_request_frame request (with_buffer "" st)) as (_ & Hbuf & _).
    rewrite Hrun in Hbuf. simpl in Hbuf. rewrite Hbuf. simpl. lia.
  - unfold read_step, bind, get_buffer, set_buffer, try_except, loads. simpl.
    rewrite Hload. simpl.
    destruct (is_JSONDecodeError e); [|discriminate].
    destruct (10000 <? _)%Z eqn:Hlt; intros Hrun; injection Hrun as <-; simpl.
    + lia.
    + now apply Z.ltb_ge in Hlt.
Qed.

(** X15. The buffer stays within the ceiling: when the loop comes to the
    end of the input from a buffer of at most 10000 characters, counted
    as [len] counts them, the buffer it leaves has at most 10000
    characters. *)
Theorem buffer_stays_within_ceiling (stdin : list string) :
  forall st st',
    (Z.of_nat (PyStr.py_len (buffer st)) <= 10000)%Z ->
    main_loop stdin st = (st', Ok tt) ->
    (Z.of_nat (PyStr.py_len (buffer st')) <= 10000)%Z.
Proof.
  induction stdin as [ | line rest IH ]; intros st st' Hlen Hrun.
  - injection Hrun as <-. exact Hlen.
  - simpl in Hrun. destruct (String.eqb line "").
    + injection Hrun as <-. exact Hlen.
    + unfold bind in Hrun.
      destruct (read_step line st) as [st1 [[]|e]] eqn:Hstep; [|discriminate].
      apply (IH st1 st'); [|exact Hrun].
      now apply read_step_buffer_bound with line st.
Qed.

(** What the dispatcher writes: at most one document, an envelope. *)
Lemma handle_request_writes (request : value) (st : process) :
  exists docs,
    stdout (fst (handle_request request st)) = (stdout st ++ docs)%list /\
    (length docs <= 1)%nat /\
    Forall envelope docs.
Proof.
  destruct request as [ | b | z | f | s | l | d ];
    try (rewrite handle_request_non_object by discriminate;
         exists []; simpl; rewrite app_nil_r;
         split; [reflexivity|]; split; [lia | constructor]).
  run_dispatch.
  repeat next_test; cbn [fst];
    match goal with
    | |- exists docs, stdout (emit ?doc _) = _ /\ _ =>
        exists [doc]; simpl; split; [reflexivity|]; split; [lia|];
        constructor; [|constructor]
    end;
    first [ left; eexists; eexists; reflexivity
          | right; left; eexists; eexists; reflexivity
          | right; right; left; eexists; eexists; reflexivity ].
Qed.

(** What one turn of the loop writes: at most one envelope. *)
Lemma read_step_writes (line : string) (st : process) :
  exists docs,
    stdout (fst (read_step line st)) = (stdout st ++ docs)%list /\
    (length docs <= 1)%nat /\
    Forall envelope docs.
Proof.
  destruct (json_loads (buffer st ++ line)) as [request|e] eqn:Hload.
  - rewrite (read_step_parsed _ _ _ Hload).
    apply (handle_request_writes request (with_buffer "" st)).
  - unfold read_step, bind, get_buffer, set_buffer, try_except, loads. simpl.
    rewrite Hload. simpl.
    destruct (is_JSONDecodeError e);
      [destruct (10000 <? _)%Z|]; simpl.
    + exists [parse_error_response]. split; [reflexivity|]. split; [simpl; lia|].
      constructor; [|constructor]. now do 3 right.
    + exists []. rewrite app_nil_r.
      split; [reflexivity|]; split; [simpl; lia | constructor].
    + exists []. rewrite app_nil_r.
      split; [reflexivity|]; split; [simpl; lia | constructor].
Qed.

(** X16. Whatever the input, the loop only adds to the standard output,
    at most one document for each read, and every document it adds is an
    envelope: a success, an error with code -32601 or -32603 of the
    dispatcher, or the parse error of the reader. *)
Theorem output_is_envelopes_one_per_read (stdin : list string) :
  forall st,
  exists docs,
    stdout (fst (main_loop stdin st)) = (stdout st ++ docs)%list /\
    (length docs <= length stdin)%nat /\
    Forall envelope docs.
Proof.
  induction stdin as [ | line rest IH ]; intros st.
  - exists []. simpl. rewrite app_nil_r. repeat split; [lia | constructor].
  - simpl. destruct (String.eqb line "").
    + exists []. simpl. rewrite app_nil_r. repeat split; [lia | constructor].
    + unfold bind.
      destruct (read_step_writes line st) as (docs1 & Hout1 & Hlen1 & Henv1).
      destruct (read_step line st) as [st1 [[]|e]]; simpl in Hout1.
      * destruct (IH st1) as (docs2 & Hout2 & Hlen2 & Henv2).
        exists (docs1 ++ docs2)%list.
        rewrite Hout2, Hout1, <- app_assoc, length_app.
        repeat split; [lia | now apply Forall_app].
      * exists docs1. simpl. repeat split; [exact Hout1 | lia | exact Henv1].
Qed.

(** How a turn of the loop can end when [json.loads] raises nothing but
    exceptions of the class [Exception]. *)
Lemma read_step_outcome (line : string) (st : process) :
  (forall text e, json_loads text = Raise e -> is_Exception e = true) ->
  snd (read_step line st) = Ok tt \/
  (exists cls msg, snd (read_step line st) = Raise (Exception cls msg)) \/
  snd (read_step line st) = Raise (SystemExit 0).
Proof.
  intros Hloads.
  destruct (json_loads (buffer st ++ line)) as [request|e] eqn:Hload.
  - rewrite (read_step_parsed _ _ _ Hload).
    destruct request as [ | b | z | f | s | l | d ];
      try (rewrite handle_request_non_object by discriminate;
           right; left; eexists; eexists; reflexivity).
    destruct (handle_request_object d (with_buffer "" st))
      as (resp & r & -> & _ & _ & ->).
    simpl. destruct (eq_str _ _); [now right; right | now left].
  - pose proof (Hloads _ _ Hload) as Hexc.
    unfold read_step, bind, get_buffer, set_buffer, try_except, loads. simpl.
    rewrite Hload. simpl.
    destruct (is_JSONDecodeError e).
    + destruct (10000 <? _)%Z; now left.
    + destruct e as [cls msg | | code]; try discriminate.
      right; left. now exists cls, msg.
Qed.

Lemma main_loop_outcome (stdin : list string) :
  (forall text e, json_loads text = Raise e -> is_Exception e = true) ->
  forall st,
    snd (main_loop stdin st) = Ok tt \/
    (exists cls msg, snd (main_loop stdin st) = Raise (Exception cls msg)) \/
    snd (main_loop stdin st) = Raise (SystemExit 0).
Proof.
  intros Hloads.
  induction stdin as [ | line rest IH ]; intros st; [now left|].
  simpl. destruct (String.eqb line ""); [now left|].
  unfold bind.
  pose proof (read_step_outcome line st Hloads) as Hstep.
  destruct (read_step line st) as [st1 [[]|e]]; simpl in *; [apply IH | exact Hstep].
Qed.

(** X17. When [json.loads] raises nothing but exceptions of the class
    [Exception], a run ends with status 0 or with status 1, whatever the
    input. *)
Theorem exit_status_is_0_or_1 (stdin : list string) :
  (forall text e, json_loads text = Raise e -> is_Exception e = true) ->
  snd (run stdin) = 0%Z \/ snd (run stdin) = 1%Z.
Proof.
  intros Hloads.
  unfold run. rewrite main_from_start. unfold try_except.
  pose proof (main_loop_outcome stdin Hloads started) as Hloop.
  destruct (main_loop stdin started) as [st' r]. simpl in Hloop.
  destruct Hloop as [-> | [(cls & msg & ->) | ->]]; simpl; auto.
Qed.

(** X18. An exception of [json.loads] that is no [JSONDecodeError] ends
    the process: the line stays in the buffer, nothing is written to the
    standard output, the text of the exception goes to the standard error
    after "Server error: ", and the status is 1; the reads that follow
    are not processed. *)
Theorem decoder_fault_ends_the_process
    (cls : error_class) (msg : string) (pre : list string) (line : string)
    (rest : list string) (st : process) :
  cls <> JSONDecodeError ->
  Forall (fun l => l <> "") pre ->
  main_loop pre started = (st, Ok tt) ->
  line <> "" ->
  json_loads (buffer st ++ line) = Raise (Exception cls msg) ->
  main (pre ++ line :: rest) process_start =
    ({| server := server st; buffer := buffer st ++ line; stdout := stdout st;
        stderr := (stderr st ++ [("Server error: " ++ msg ++ newline)%string])%list |},
     Raise (SystemExit 1)) /\
  run (pre ++ line :: rest) = (stdout st, 1%Z).
Proof.
  intros Hcls Hpre Hrun Hline Hload.
  assert (Hmain : main (pre ++ line :: rest) process_start =
    ({| server := server st; buffer := buffer st ++ line; stdout := stdout st;
        stderr := (stderr st ++ [("Server error: " ++ msg ++ newline)%string])%list |},
     Raise (SystemExit 1))).
  { rewrite main_from_start. unfold try_except.
    rewrite main_loop_app by assumption.
    unfold bind at 1. rewrite Hrun.
    rewrite main_loop_cons by assumption.
    unfold bind at 1.
    unfold read_step, bind, get_buffer, set_buffer, try_except, loads. simpl.
    rewrite Hload. simpl.
    destruct cls; try contradiction; reflexivity. }
  split; [exact Hmain|].
  unfold run. now rewrite Hmain.
Qed.

(** X19. An empty read is the end of the input: the loop ends there, and
    what further reads would have given is not processed. *)
Theorem empty_read_ends_the_loop (pre rest : list string) (st : process) :
  Forall (fun l => l <> "") pre ->
  main_loop (pre ++ "" :: rest)%list st = main_loop pre st.
Proof.
  intros Hpre. rewrite main_loop_app by assumption.
  unfold bind. simpl.
  now destruct (main_loop pre st) as [st' [[]|e]].
Qed.

End Server.

(** ** The properties at work on the sample runtime *)

Lemma requests_answered_once_in_order_witness :
  exists resps resp,
    Forall2 answers [ping_request] resps /\
    answers echo_request resp /\
    main_loop literal_repr ascii_repr sample_environ text_loads
      [ping_line; echo_first; echo_second; ping_line] process_start =
    main_loop literal_repr ascii_repr sample_environ text_loads
      [ping_line] (emit_all (resps ++ [resp]) process_start).
Proof.
  apply (requests_answered_once_in_order literal_repr ascii_repr sample_environ text_loads
           [([ping_line], ping_request)] [echo_first; echo_second] echo_request
           [ping_line] process_start).
  - reflexivity.
  - constructor; [|constructor].
    split; [|split; [reflexivity | vm_compute; reflexivity]].
    split; [discriminate | vm_compute; reflexivity].
  - split; [discriminate|].
    split; [eexists; vm_compute; reflexivity|].
    split; [vm_compute; discriminate|].
    split; [discriminate | vm_compute; reflexivity].
  - vm_compute; reflexivity.
Defined.

Lemma split_request_dispatched_once_witness :
  (read_step literal_repr ascii_repr sample_environ text_loads echo_first process_start =
     (with_buffer echo_first process_start, Ok tt) /\
   read_step literal_repr ascii_repr sample_environ text_loads echo_second
     (with_buffer echo_first process_start) =
     handle_request literal_repr ascii_repr sample_environ (JDict echo_request) process_start /\
   main_loop literal_repr ascii_repr sample_environ text_loads
     [echo_first; echo_second; ping_line] process_start =
     (handle_request literal_repr ascii_repr sample_environ (JDict echo_request) ;;
      main_loop literal_repr ascii_repr sample_environ text_loads [ping_line]) process_start) /\
  (read_step literal_repr ascii_repr sample_environ text_loads echo_head process_start =
     (with_buffer echo_head process_start, Ok tt) /\
   read_step literal_repr ascii_repr sample_environ text_loads echo_tail
     (with_buffer echo_head process_start) =
     handle_request literal_repr ascii_repr sample_environ (JDict echo_request) process_start /\
   main_loop literal_repr ascii_repr sample_environ text_loads
     [echo_head; echo_tail; ping_line] process_start =
     (handle_request literal_repr ascii_repr sample_environ (JDict echo_request) ;;
      main_loop literal_repr ascii_repr sample_environ text_loads [ping_line]) process_start).
Proof.
  split.
  - apply (split_request_dispatched_once literal_repr ascii_repr sample_environ text_loads
             echo_first echo_second "not a JSON document").
    + reflexivity.
    + discriminate.
    + discriminate.
    + vm_compute; reflexivity.
    + vm_compute; discriminate.
    + vm_compute; reflexivity.
  - apply (split_request_dispatched_once literal_repr ascii_repr sample_environ text_loads
             echo_head echo_tail "not a JSON document").
    + reflexivity.
    + discriminate.
    + discriminate.
    + vm_compute; reflexivity.
    + vm_compute; discriminate.
    + vm_compute; reflexivity.
Defined.

Lemma oversized_buffer_given_up_witness :
  read_step literal_repr ascii_repr sample_environ text_loads endless_line process_start =
    (emit parse_error_response (with_buffer "" process_start), Ok tt) /\
  error_code parse_error_response = Some (JInt (-32700)) /\
  error_message parse_error_response = Some (JStr "Parse error") /\
  response_id parse_error_response = None /\
  buffer (emit parse_error_response (with_buffer "" process_start)) = "" /\
  main_loop literal_repr ascii_repr sample_environ text_loads
    [endless_line; ping_line] process_start =
    main_loop literal_repr ascii_repr sample_environ text_loads [ping_line]
      (emit parse_error_response (with_buffer "" process_start)).
Proof.
  apply (oversized_buffer_given_up literal_repr ascii_repr sample_environ text_loads
           endless_line "not a JSON document").
  - discriminate.
  - vm_compute; reflexivity.
  - vm_compute; reflexivity.
Defined.

Lemma shutdown_ends_the_process_witness :
  run literal_repr ascii_repr sample_environ text_loads
    [ping_line; shutdown_line; ping_line] =
    ([success_response (JInt 2) (JDict [("output", JStr "pong")]);
      success_response (JInt 3) (JDict [])], 0%Z).
Proof.
  apply (shutdown_ends_the_process literal_repr ascii_repr sample_environ text_loads
           shutdown_request [ping_line] shutdown_line [ping_line]
           (emit (success_response (JInt 2) (JDict [("output", JStr "pong")]))
                 started)).
  - reflexivity.
  - vm_compute; reflexivity.
  - repeat constructor; discriminate.
  - vm_compute; reflexivity.
  - discriminate.
  - vm_compute; reflexivity.
Defined.





(** *** Runs of the dispatcher *)

Example initialize_lists_three_tools :
  exists tools,
    handle_request literal_repr ascii_repr empty_environ
      (JDict [("id", JInt 0); ("method", JStr "initialize")]) process_start =
      (emit (success_response (JInt 0) initialize_result) process_start, Ok tt) /\
    initialize_result =
      JDict [("protocolVersion", JStr "1.0");
             ("serverInfo", JDict [("name", JStr "echo-test-server-python");
                                   ("version", JStr "1.0.0")]);
             ("capabilities",
              JDict [("tools", JDict [("available", JList tools)])])] /\
    map (fun tool => match tool with
                     | JDict t => dict_get t "name"
                     | _ => None
                     end) tools =
      [Some (JStr "echo"); Some (JStr "ping"); Some (JStr "get_env")].
Proof. eexists. repeat split; reflexivity. Qed.

Example method_not_found :
  handle_request literal_repr ascii_repr empty_environ
    (JDict [("id", JStr "x"); ("method", JStr "tools/list")]) process_start =
    (emit (error_response (JStr "x") (-32601) "Method not found: tools/list")
          process_start, Ok tt) /\
  handle_request literal_repr ascii_repr empty_environ (JDict [("id", JStr "x")])
    process_start =
    (emit (error_response (JStr "x") (-32601) "Method not found: None")
          process_start, Ok tt).
Proof. split; reflexivity. Qed.

(** A message that is no string is shown as [str] shows it. *)
Example echo_of_a_list :
  handle_request literal_repr ascii_repr empty_environ
    (JDict [("method", JStr "tools/call");
            ("params",
             JDict [("name", JStr "echo");
                    ("arguments",
                     JDict [("message", JList [JInt 1; JStr "a"; JNull])])])])
    process_start =
    (emit (success_response JNull (JDict [("output", JStr "[ECHO] [1, 'a', None]")]))
          process_start, Ok tt).
Proof. reflexivity. Qed.

(** A variable name that is no string is refused by the environment, and
    the fault is reported as an internal error. *)
Example get_env_of_a_number :
  handle_request literal_repr ascii_repr empty_environ
    (JDict [("id", JInt 4); ("method", JStr "tools/call");
            ("params",
             JDict [("name", JStr "get_env");
                    ("arguments", JDict [("name", JInt 5)])])])
    process_start =
    (emit (error_response (JInt 4) (-32603)
             "Internal error: str expected, not int") process_start, Ok tt).
Proof. reflexivity. Qed.

(** An object whose [params] are no mapping: the fault is met inside the
    [try], and the internal error is the response. *)
Example array_params_reported :
  handle_request literal_repr ascii_repr empty_environ (JDict array_params_request)
    process_start =
    (emit (error_response (JInt 5) (-32603)
             "Internal error: 'list' object has no attribute 'get'")
          process_start, Ok tt).
Proof. reflexivity. Qed.

(** C2. The input whose first line is the JSON array [[]], followed by a
    [ping] request: the array is decoded, the fault of its handling
    leaves the dispatcher, no response is written, and [main] reports it
    on the standard error and exits with status 1, so that the request
    after it is not served.  The same request alone is answered. *)
Example non_object_document_stops_the_server :
  main literal_repr ascii_repr empty_environ text_loads [array_line; ping_line]
    process_start =
    ({| server := EchoMCPServer_init; buffer := ""; stdout := [];
        stderr := ["Python Echo MCP Server started" ++ newline;
                   "Server error: 'list' object has no attribute 'get'"
                     ++ newline] |},
     Raise (SystemExit 1)) /\
  run literal_repr ascii_repr empty_environ text_loads [array_line; ping_line] = ([], 1%Z) /\
  run literal_repr ascii_repr empty_environ text_loads [ping_line] =
    ([success_response (JInt 2) (JDict [("output", JStr "pong")])], 0%Z).
Proof. repeat split; vm_compute; reflexivity. Qed.

(** ** The further properties at work on the sample runtime *)










Lemma request_without_id_answered_witness :
  exists resp r,
    handle_request literal_repr ascii_repr sample_environ
      (JDict [("method", JStr "shutdown")]) process_start =
      (emit resp process_start, r) /\
    response_id resp = Some JNull /\
    (is_success resp \/ is_error resp).
Proof.
  apply (request_without_id_answered literal_repr ascii_repr sample_environ
           [("method", JStr "shutdown")] process_start).
  reflexivity.
Defined.

Lemma only_three_fields_read_witness :
  handle_request literal_repr ascii_repr sample_environ (JDict ping_request) process_start =
  handle_request literal_repr ascii_repr sample_environ
    (JDict [("params", JDict [("name", JStr "ping")]); ("extra", JBool true);
            ("method", JStr "tools/call"); ("jsonrpc", JStr "1.0");
            ("id", JInt 2)]) process_start.
Proof.
  apply (only_three_fields_read literal_repr ascii_repr sample_environ ping_request
           [("params", JDict [("name", JStr "ping")]); ("extra", JBool true);
            ("method", JStr "tools/call"); ("jsonrpc", JStr "1.0");
            ("id", JInt 2)] process_start);
    reflexivity.
Defined.

Lemma request_in_many_reads_witness :
  main_loop literal_repr ascii_repr sample_environ text_loads [echo_head; echo_middle]
    process_start =
    (with_buffer (echo_head ++ echo_middle) process_start, Ok tt) /\
  main_loop literal_repr ascii_repr sample_environ text_loads
    [echo_head; echo_middle; echo_end; ping_line] process_start =
    (handle_request literal_repr ascii_repr sample_environ (JDict echo_request) ;;
     main_loop literal_repr ascii_repr sample_environ text_loads [ping_line])
      (with_buffer "" process_start).
Proof.
  apply (request_in_many_reads literal_repr ascii_repr sample_environ text_loads
           [echo_head; echo_middle] echo_end (JDict echo_request) [ping_line]
           process_start).
  split; [discriminate|].
  split; [eexists; vm_compute; reflexivity|].
  split; [vm_compute; discriminate|].
  split; [discriminate|].
  split; [eexists; vm_compute; reflexivity|].
  split; [vm_compute; discriminate|].
  split; [discriminate | vm_compute; reflexivity].
Defined.

Lemma unfinished_text_is_dropped_witness :
  main_loop literal_repr ascii_repr sample_environ text_loads [echo_head; echo_middle]
    started =
    (with_buffer (echo_head ++ echo_middle) started, Ok tt) /\
  run literal_repr ascii_repr sample_environ text_loads [echo_head; echo_middle] = ([], 0%Z).
Proof.
  apply (unfinished_text_is_dropped literal_repr ascii_repr sample_environ text_loads
           [echo_head; echo_middle]).
  split; [discriminate|].
  split; [eexists; vm_compute; reflexivity|].
  split; [vm_compute; discriminate|].
  split; [discriminate|].
  split; [eexists; vm_compute; reflexivity|].
  split; [vm_compute; discriminate | exact I].
Defined.


Lemma buffer_stays_within_ceiling_witness :
  (Z.of_nat (PyStr.py_len (buffer (with_buffer echo_first process_start)))
   <= 10000)%Z.
Proof.
  apply (buffer_stays_within_ceiling literal_repr ascii_repr sample_environ text_loads
           [echo_first] process_start (with_buffer echo_first process_start)).
  - vm_compute; discriminate.
  - vm_compute; reflexivity.
Defined.

Lemma exit_status_is_0_or_1_witness :
  snd (run literal_repr ascii_repr sample_environ text_loads
         [ping_line; array_line; ping_line]) = 0%Z \/
  snd (run literal_repr ascii_repr sample_environ text_loads
         [ping_line; array_line; ping_line]) = 1%Z.
Proof.
  apply (exit_status_is_0_or_1 literal_repr ascii_repr sample_environ text_loads).
  intros text e. unfold text_loads.
  destruct (JsonText.decode text); intros [= <-]; reflexivity.
Defined.

Lemma decoder_fault_ends_the_process_witness :
  main literal_repr ascii_repr sample_environ limited_loads
    [ping_line; deep_line; ping_line] process_start =
    ({| server := EchoMCPServer_init; buffer := deep_line;
        stdout := [success_response (JInt 2) (JDict [("output", JStr "pong")])];
        stderr :=
          ["Python Echo MCP Server started" ++ newline;
           "Server error: maximum recursion depth exceeded while decoding a JSON array from a unicode string"
             ++ newline] |},
     Raise (SystemExit 1)) /\
  run literal_repr ascii_repr sample_environ limited_loads
    [ping_line; deep_line; ping_line] =
    ([success_response (JInt 2) (JDict [("output", JStr "pong")])], 1%Z).
Proof.
  apply (decoder_fault_ends_the_process literal_repr ascii_repr sample_environ
           limited_loads RecursionError
           "maximum recursion depth exceeded while decoding a JSON array from a unicode string"
           [ping_line] deep_line [ping_line]
           (emit (success_response (JInt 2) (JDict [("output", JStr "pong")]))
                 started)).
  - discriminate.
  - repeat constructor; discriminate.
  - vm_compute; reflexivity.
  - discriminate.
  - vm_compute; reflexivity.
Defined.

Lemma empty_read_ends_the_loop_witness :
  main_loop literal_repr ascii_repr sample_environ text_loads
    [ping_line; ""; shutdown_line] process_start =
  main_loop literal_repr ascii_repr sample_environ text_loads [ping_line] process_start.
Proof.
  apply (empty_read_ends_the_loop literal_repr ascii_repr sample_environ text_loads
           [ping_line] [shutdown_line] process_start).
  repeat constructor; discriminate.
Defined.

(** ** Where two claims of the specification fail *)

(** C4, as the specification states it, fails on a line of 6002
    characters in 12002 bytes that is no JSON document: it is over the
    ceiling counted in bytes, and the turn of the loop keeps it in the
    buffer and writes nothing. *)
Lemma oversized_in_bytes_is_kept :
  (10000 < Z.of_nat (String.length (buffer process_start ++ accent_line)))%Z /\
  text_loads (buffer process_start ++ accent_line) =
    Raise (Exception JSONDecodeError "not a JSON document") /\
  PyStr.py_len accent_line = (60 * 100 + 2)%nat /\
  read_step literal_repr ascii_repr sample_environ text_loads accent_line
    process_start = (with_buffer accent_line process_start, Ok tt) /\
  read_step literal_repr ascii_repr sample_environ text_loads accent_line
    process_start <>
    (emit parse_error_response (with_buffer "" process_start), Ok tt).
Proof.
  assert (Hstep :
    read_step literal_repr ascii_repr sample_environ text_loads accent_line
      process_start = (with_buffer accent_line process_start, Ok tt))
    by (vm_compute; reflexivity).
  split; [vm_compute; reflexivity|].
  split; [vm_compute; reflexivity|].
  split; [vm_compute; reflexivity|].
  split; [exact Hstep|].
  rewrite Hstep. intros H.
  assert (Hout : stdout (with_buffer accent_line process_start) =
                 stdout (emit parse_error_response (with_buffer "" process_start)))
    by congruence.
  discriminate Hout.
Qed.

